(** * A shallow embedding of the RAG chatbot pipeline (src/src/*.py, src/main.py)

    The Python program is modelled in a state and exception monad over a
    [world]: the file system (a gmap from path to node), standard input, the
    replies the generation service gives, the telemetry client and the clock.
    Output (stdout, log records, sink records, stage calls) is a write-only
    list of events.  Python exceptions carry their class, so that
    [except Exception] (which lets [KeyboardInterrupt] and [SystemExit] pass)
    is modelled as written. *)

From Stdlib Require Import Floats ZArith.
From stdpp Require Import base gmap strings list pretty.

Open Scope string_scope.

(** ** Python exceptions and outcomes *)

Record exc := mk_exc {
  exc_name : string;
  (** [true] for subclasses of [Exception]; [false] for the other
      [BaseException]s ([KeyboardInterrupt], [SystemExit], ...) *)
  exc_is_Exception : bool;
  exc_msg : string
}.

Definition OSError (name msg : string) : exc := mk_exc name true msg.
Definition ValueError (msg : string) : exc := mk_exc "ValueError" true msg.
Definition EOFError : exc := mk_exc "EOFError" true "".
Definition KeyboardInterrupt : exc := mk_exc "KeyboardInterrupt" false "".

Inductive result (A : Type) : Type :=
| Ok (a : A)
| Err (e : exc).
Arguments Ok {A} a.
Arguments Err {A} e.

(** ** The world *)

Inductive node : Type :=
| FileNode (data : string) (mtime : float) (readable writable : bool)
| DirNode (entries : list string) (mtime : float).

Definition node_mtime (n : node) : float :=
  match n with FileNode _ m _ _ => m | DirNode _ m => m end.

(** A record handed to the telemetry sink ([_langfuse_client.trace(...)]). *)
Record trace_record := mk_trace {
  tr_name : string;
  tr_status : string;
  tr_input : option string;
  tr_output : option string
}.

(** The global [_langfuse_client]: each call may fail with an exception. *)
Record client := mk_client {
  cl_trace : trace_record -> option exc;
  cl_flush : option exc
}.

Record world := mk_world {
  w_fs : gmap string node;
  w_can_create : string -> bool;   (* open(p, 'w') may create p *)
  w_stdin : list string;           (* lines still to be read by input() *)
  w_replies : list (result string);(* what successive rag_chain.invoke calls give *)
  w_client : option client;
  w_now : float                    (* mtime given to a file written now *)
}.

Inductive level := DEBUG | INFO | WARNING | ERROR | CRITICAL.

Inductive event : Type :=
| EvStdout (s : string)
| EvLog (l : level) (s : string)
| EvStage (name : string)          (* a pipeline stage function ran *)
| EvInvoke (q : string)            (* rag_chain.invoke(q) was called *)
| EvTrace (r : trace_record)       (* the sink accepted a record *)
| EvFlush.

(** ** The monad *)

Definition M (A : Type) : Type := world -> result A * world * list event.

Definition ret {A} (a : A) : M A := fun w => (Ok a, w, []).
Definition raise {A} (e : exc) : M A := fun w => (Err e, w, []).
Definition bind {A B} (m : M A) (k : A -> M B) : M B :=
  fun w =>
    match m w with
    | (Ok a, w1, o1) => let '(r, w2, o2) := k a w1 in (r, w2, (o1 ++ o2)%list)
    | (Err e, w1, o1) => (Err e, w1, o1)
    end.

Notation "x <- m ;; k" := (bind m (fun x => k))
  (at level 100, m at next level, right associativity).
Notation "m ;;; k" := (bind m (fun _ => k))
  (at level 100, right associativity).

(** [try: m except Exception as e: h e]; other exceptions pass through. *)
Definition try_except {A} (m : M A) (h : exc -> M A) : M A :=
  fun w =>
    match m w with
    | (Err e, w1, o1) =>
        if exc_is_Exception e
        then let '(r, w2, o2) := h e w1 in (r, w2, (o1 ++ o2)%list)
        else (Err e, w1, o1)
    | res => res
    end.

Definition emit (ev : event) : M unit := fun w => (Ok tt, w, [ev]).
Definition get_world : M world := fun w => (Ok w, w, []).
Definition put_world (w' : world) : M unit := fun _ => (Ok tt, w', []).

Definition log (l : level) (s : string) : M unit := emit (EvLog l s).

Definition nl : string := String (Ascii.ascii_of_nat 10) EmptyString.

(** [print(s)] *)
Definition print (s : string) : M unit := emit (EvStdout (s ++ nl)).

(** [input(prompt)]: writes the prompt, reads a line, [EOFError] at the end. *)
Definition input (prompt : string) : M string :=
  w <- get_world;;
  emit (EvStdout prompt);;;
  match w_stdin w with
  | [] => raise EOFError
  | l :: rest =>
      put_world {| w_fs := w_fs w; w_can_create := w_can_create w;
                   w_stdin := rest; w_replies := w_replies w;
                   w_client := w_client w; w_now := w_now w |};;;
      ret l
  end.

(** ** Python string builtins on ASCII text *)

Definition py_isspace (c : Ascii.ascii) : bool :=
  let n := Ascii.nat_of_ascii c in
  (((9 <=? n) && (n <=? 13)) || ((28 <=? n) && (n <=? 32)))%nat.

Fixpoint lstrip (s : string) : string :=
  match s with
  | EmptyString => EmptyString
  | String c r => if py_isspace c then lstrip r else s
  end.

Definition rstrip (s : string) : string :=
  String.rev (lstrip (String.rev s)).

(** [s.strip()] *)
Definition py_strip (s : string) : string := rstrip (lstrip s).

Definition ascii_lower (c : Ascii.ascii) : Ascii.ascii :=
  let n := Ascii.nat_of_ascii c in
  if ((65 <=? n) && (n <=? 90))%nat then Ascii.ascii_of_nat (n + 32)%nat else c.

(** [s.lower()] *)
Fixpoint py_lower (s : string) : string :=
  match s with
  | EmptyString => EmptyString
  | String c r => String (ascii_lower c) (py_lower r)
  end.

(** ** Builtins and libraries the repository calls but does not define *)

Class externals := mk_externals {
  (** [float(s)]; [None] is its [ValueError] *)
  py_float : string -> option float;
  (** [str(x)] of a float *)
  py_str_float : float -> string;
  (** the splitter's BPE tokenizer: [encode] and [decode] *)
  tok_encode : string -> list Z;
  tok_decode : list Z -> string;
  (** [AutoTokenizer.from_pretrained("gpt2")]: [Some e] when loading the
      tokenizer (from the cache or the hub) raises [e] *)
  hf_tokenizer_load : option exc;
  (** [tiktoken.get_encoding("gpt2")], run by [TokenTextSplitter]'s
      constructor: [Some e] when loading the encoding raises [e] *)
  tiktoken_load : option exc;
  (** [PyPDFLoader(path).load()], reading the page texts out of the file's
      bytes; [None] is a parse failure *)
  pdf_pages : string -> option (list string)
}.

Section Program.
Context `{X : externals}.

(** ** The file system: [os.path] and [open] *)

Definition set_fs (w : world) (fs : gmap string node) : world :=
  {| w_fs := fs; w_can_create := w_can_create w; w_stdin := w_stdin w;
     w_replies := w_replies w; w_client := w_client w; w_now := w_now w |}.

Definition os_path_exists (p : string) : M bool :=
  w <- get_world;;
  match w_fs w !! p with Some _ => ret true | None => ret false end.

Definition os_path_getmtime (p : string) : M float :=
  w <- get_world;;
  match w_fs w !! p with
  | Some n => ret (node_mtime n)
  | None => raise (OSError "FileNotFoundError" p)
  end.

(** [with open(p, 'r') as f: f.read()] *)
Definition read_file (p : string) : M string :=
  w <- get_world;;
  match w_fs w !! p with
  | Some (FileNode d _ true _) => ret d
  | Some (FileNode _ _ false _) => raise (OSError "PermissionError" p)
  | Some (DirNode _ _) => raise (OSError "IsADirectoryError" p)
  | None => raise (OSError "FileNotFoundError" p)
  end.

(** [with open(p, 'w') as f: f.write(s)]: the file gets the clock's mtime. *)
Definition write_file (p s : string) : M unit :=
  w <- get_world;;
  match w_fs w !! p with
  | Some (FileNode _ _ r true) =>
      put_world (set_fs w (<[p := FileNode s (w_now w) r true]> (w_fs w)))
  | Some (FileNode _ _ _ false) => raise (OSError "PermissionError" p)
  | Some (DirNode _ _) => raise (OSError "IsADirectoryError" p)
  | None =>
      if w_can_create w p
      then put_world (set_fs w (<[p := FileNode s (w_now w) true true]> (w_fs w)))
      else raise (OSError "FileNotFoundError" p)
  end.

(** [q] is [p] or a path below it. *)
Definition in_tree (p q : string) : bool :=
  String.eqb q p || String.prefix (p ++ "/") q.

(** [shutil.rmtree(p)]: the directory and everything below it go. *)
Definition rmtree (p : string) : M unit :=
  w <- get_world;;
  match w_fs w !! p with
  | Some (DirNode _ _) =>
      put_world (set_fs w (filter (fun kv => in_tree p kv.1 = false) (w_fs w)))
  | Some _ => raise (OSError "NotADirectoryError" p)
  | None => raise (OSError "FileNotFoundError" p)
  end.

(** [float(s)] *)
Definition float_of_string (s : string) : M float :=
  match py_float s with
  | Some f => ret f
  | None => raise (ValueError ("could not convert string to float: " ++ s))
  end.

(** ** data_loader.py: the checkpoint tracker *)

Definition default_checkpoint : string := ".pdf_checkpoint".

Definition has_pdf_changed (pdf_path checkpoint_file : string) : M bool :=
  e <- os_path_exists checkpoint_file;;
  if negb e then ret true else
  e' <- os_path_exists pdf_path;;
  if negb e' then log WARNING ("PDF not found: " ++ pdf_path);;; ret true else
  current_mtime <- os_path_getmtime pdf_path;;
  try_except
    (data <- read_file checkpoint_file;;
     last_mtime <- float_of_string (py_strip data);;
     if negb (PrimFloat.eqb current_mtime last_mtime)
     then log INFO ("PDF modified detected (previous: " ++ py_str_float last_mtime
                    ++ ", current: " ++ py_str_float current_mtime ++ ")");;;
          ret true
     else ret false)
    (fun e => log WARNING ("Error reading checkpoint file: " ++ exc_msg e
                           ++ ". Rebuilding vector database.");;;
              ret true).

(** The [try] block of [update_pdf_checkpoint]. *)
Definition update_pdf_checkpoint_body (pdf_path checkpoint_file : string) : M unit :=
  mtime <- os_path_getmtime pdf_path;;
  write_file checkpoint_file (py_str_float mtime);;;
  log INFO ("PDF checkpoint updated (mtime: " ++ py_str_float mtime ++ ")").

Definition update_pdf_checkpoint (pdf_path checkpoint_file : string) : M unit :=
  try_except
    (update_pdf_checkpoint_body pdf_path checkpoint_file)
    (fun e => log ERROR ("Error updating checkpoint: " ++ exc_msg e)).

(** ** observability.py: the trace recorder *)

(** Python values as the tracer sees them: [str] and [repr] of an object run
    its own [__str__]/[__repr__], which may raise. *)
Inductive pyval : Type :=
| PyStr (s : string)
| PyObj (repr : option string).

Definition repr_failure : exc := mk_exc "RuntimeError" true "__repr__ failed".

Definition py_repr (v : pyval) : M string :=
  match v with
  | PyStr s => ret ("'" ++ s ++ "'")
  | PyObj (Some r) => ret r
  | PyObj None => raise repr_failure
  end.

Definition py_str (v : pyval) : M string :=
  match v with
  | PyStr s => ret s
  | _ => py_repr v
  end.

Fixpoint repr_items (vs : list pyval) : M string :=
  match vs with
  | [] => ret ""
  | [v] => py_repr v
  | v :: rest => s <- py_repr v;; t <- repr_items rest;; ret (s ++ ", " ++ t)
  end.

(** [str(args)] of the positional arguments tuple *)
Definition py_str_args (args : list pyval) : M string :=
  s <- repr_items args;; ret ("(" ++ s ++ ")").

(** [s[:100]] *)
Definition trunc100 (s : string) : string := String.substring 0 100 s.

(** [if _langfuse_client: try: _langfuse_client.trace(...) except Exception as e:
    logger.debug(...)]; building the record is inside the [try]. *)
Definition send_trace (mk : M trace_record) (what : string) : M unit :=
  w <- get_world;;
  match w_client w with
  | None => ret tt
  | Some c =>
      try_except
        (r <- mk;;
         match cl_trace c r with
         | None => emit (EvTrace r)
         | Some e => raise e
         end)
        (fun e => log DEBUG ("Failed to send " ++ what ++ " to Langfuse: " ++ exc_msg e))
  end.

(** The wrapper [trace_function(name, include_args, include_result)] puts
    around a call; [args_str] is [str(args)] and [result_str] is [str] of
    the result.  Elapsed times in the log lines are left out. *)
Definition trace_function {A} (name : string) (include_args include_result : bool)
    (args_str : M string) (result_str : A -> M string) (func : M A) : M A :=
  try_except
    (log DEBUG ("[TRACE START] " ++ name);;;
     (if include_args then s <- args_str;; log DEBUG ("  Args: " ++ s) else ret tt);;;
     result <- func;;
     log INFO ("[TRACE END] " ++ name ++ " completed");;;
     (if include_result then s <- result_str result;; log DEBUG ("  Result: " ++ s)
      else ret tt);;;
     send_trace
       (i <- (if include_args then s <- args_str;; ret (Some (trunc100 s)) else ret None);;
        o <- (if include_result then s <- result_str result;; ret (Some (trunc100 s))
              else ret None);;
        ret (mk_trace name "success" i o))
       "trace";;;
     ret result)
    (fun e =>
       log ERROR ("[TRACE ERROR] " ++ name ++ " failed: " ++ exc_msg e);;;
       send_trace (ret (mk_trace name "error" None None)) "error trace";;;
       raise e).

(** A Python function [f] of positional arguments decorated with [@trace_function(...)]. *)
Definition traced (name : string) (include_args include_result : bool)
    (f : list pyval -> M pyval) : list pyval -> M pyval :=
  fun args => trace_function name include_args include_result
                (py_str_args args) py_str (f args).

(** [with trace_context(name, metadata) as ctx: body]; the body gives its
    value and what it stored in [ctx["output"]]. *)
Definition trace_context {A} (name : string) (body : M (A * option string)) : M A :=
  try_except
    (log DEBUG ("[CONTEXT START] " ++ name);;;
     r <- body;;
     log INFO ("[CONTEXT END] " ++ name ++ " completed");;;
     send_trace (ret (mk_trace name "success" None (snd r))) "context trace";;;
     ret (fst r))
    (fun e =>
       log ERROR ("[CONTEXT ERROR] " ++ name ++ " failed: " ++ exc_msg e);;;
       send_trace (ret (mk_trace name "error" None None)) "error trace";;;
       raise e).

Definition flush_traces : M unit :=
  w <- get_world;;
  match w_client w with
  | None => ret tt
  | Some c =>
      try_except
        (match cl_flush c with
         | None => emit EvFlush;;; log DEBUG "Langfuse traces flushed successfully"
         | Some e => raise e
         end)
        (fun e => log ERROR ("Failed to flush Langfuse traces: " ++ exc_msg e))
  end.

(** ** The generation chain: [rag_chain.invoke(q)] *)

Definition invoke (q : string) : M string :=
  emit (EvInvoke q);;;
  w <- get_world;;
  match w_replies w with
  | [] => raise (mk_exc "ConnectionError" true "generation service unreachable")
  | r :: rest =>
      put_world {| w_fs := w_fs w; w_can_create := w_can_create w;
                   w_stdin := w_stdin w; w_replies := rest;
                   w_client := w_client w; w_now := w_now w |};;;
      match r with Ok s => ret s | Err e => raise e end
  end.

(** ** src/src/main.py: the interactive loop *)

(** One pass of [while True: try: ... except Exception as e: ...];
    [Some n] continues with [query_count = n], [None] is the [break].  The
    handler reports with the count as far as the body had advanced it: the
    increment happens before the traced query, so a failing query keeps it. *)
Definition query_iteration (query_count : nat) : M (option nat) :=
  let handler (qc : nat) (e : exc) : M (option nat) :=
    log ERROR ("Error processing query: " ++ exc_msg e);;;
    print ("Error: " ++ exc_msg e ++ nl);;;
    ret (Some qc) in
  try_except
    (line <- input "Question: ";;
     let user_question := py_strip line in
     if String.eqb user_question "" then
       print ("Please enter a question." ++ nl);;; ret (Some query_count)
     else if String.eqb (py_lower user_question) "exit" then
       log INFO "User exited chatbot";;;
       flush_traces;;;
       print "Goodbye!";;;
       ret None
     else
       let qc := S query_count in
       try_except
         (log INFO ("Query #" ++ pretty qc ++ ": " ++ user_question);;;
          trace_context ("query_" ++ pretty qc)
            (print (nl ++ "Searching and generating response..." ++ nl);;;
             response <- invoke user_question;;
             print ("Answer: " ++ response ++ nl);;;
             log INFO ("Response generated for query #" ++ pretty qc);;;
             ret (tt, Some response));;;
          ret (Some qc))
         (handler qc))
    (handler query_count).

Inductive loop_end := Exited | OutOfFuel.

(** The [while True] loop, run for at most [fuel] passes. *)
Fixpoint query_loop (fuel query_count : nat) : M loop_end :=
  match fuel with
  | O => ret OutOfFuel
  | S f =>
      r <- query_iteration query_count;;
      match r with
      | None => ret Exited
      | Some qc => query_loop f qc
      end
  end.

(** ** src/main.py: the loop of the top-level entry point (no handler) *)

Definition root_iteration : M bool :=
  user_question <- input (nl ++ "Your Question: ");;
  if String.eqb (py_lower user_question) "exit" then
    print "Exiting chatbot.";;; ret true
  else
    print "Searching and generating response...";;;
    response <- invoke user_question;;
    print (nl ++ "Answer:" ++ " " ++ response);;;
    ret false.

Fixpoint root_loop (fuel : nat) : M loop_end :=
  match fuel with
  | O => ret OutOfFuel
  | S f => b <- root_iteration;; if b then ret Exited else root_loop f
  end.

(** ** data_loader.py: [load_pdf] *)

Record document := mk_doc {
  page_content : string;
  md_source : string;
  md_page : nat
}.

Definition no_result_str {A} (_ : A) : M string := ret "".

Definition load_pdf (pdf_path : string) : M (list document) :=
  trace_function "load_pdf" true false (py_str_args [PyStr pdf_path]) no_result_str
    (emit (EvStage "load_pdf");;;
     e <- os_path_exists pdf_path;;
     if negb e then
       log ERROR ("PDF not found at " ++ pdf_path);;;
       raise (OSError "FileNotFoundError" ("PDF not found: " ++ pdf_path))
     else
       try_except
         (log INFO ("Loading PDF from " ++ pdf_path);;;
          data <- read_file pdf_path;;
          match pdf_pages data with
          | Some pages =>
              let docs := imap (fun i t => mk_doc t pdf_path i) pages in
              log INFO "Successfully loaded pages from PDF";;;
              ret docs
          | None => raise (mk_exc "PdfReadError" true "cannot parse PDF")
          end)
         (fun e => log ERROR ("Failed to load PDF: " ++ exc_msg e);;; raise e)).

(** ** text_splitter.py: [split_documents]

    The splitting itself is the library's [TokenTextSplitter]
    ([split_text_on_tokens]); it is written out here as the spec describes
    it: windows of [chunk_size] tokens, each starting [chunk_size -
    chunk_overlap] tokens after the previous one, the last one cut at the end
    of the text. *)

(** Modelled from the spec: [while start_idx < len(input_ids): ... start_idx += tokens_per_chunk -
    chunk_overlap; cur_idx = min(start_idx + tokens_per_chunk, len(input_ids))],
    as the list of [(start_idx, cur_idx)] of the chunks it appends. *)
Fixpoint token_windows (fuel n tokens_per_chunk chunk_overlap start_idx cur_idx : nat)
    : list (nat * nat) :=
  match fuel with
  | O => []
  | S f =>
      if (start_idx <? n)%nat then
        (start_idx, cur_idx)
          :: (if (cur_idx =? n)%nat then []
              else
                let s' := start_idx + (tokens_per_chunk - chunk_overlap) in
                token_windows f n tokens_per_chunk chunk_overlap s'
                  (Nat.min (s' + tokens_per_chunk) n))
      else []
  end.

Definition windows_of (input_ids : list Z) (tokens_per_chunk chunk_overlap : nat)
    : list (nat * nat) :=
  token_windows (S (length input_ids)) (length input_ids) tokens_per_chunk chunk_overlap
    0 (Nat.min tokens_per_chunk (length input_ids)).

(** [input_ids[start:cur]] *)
Definition slice (input_ids : list Z) (start cur : nat) : list Z :=
  take (cur - start) (drop start input_ids).

(** The token ids of each chunk of a text. *)
Definition token_chunks (tokens_per_chunk chunk_overlap : nat) (text : string)
    : list (list Z) :=
  let ids := tok_encode text in
  map (fun '(st, cu) => slice ids st cu) (windows_of ids tokens_per_chunk chunk_overlap).

Definition split_text_on_tokens (tokens_per_chunk chunk_overlap : nat) (text : string)
    : list string :=
  map tok_decode (token_chunks tokens_per_chunk chunk_overlap text).

(** [TextSplitter.split_documents]: each chunk keeps its unit's metadata. *)
Definition split_docs (chunk_size chunk_overlap : nat) (docs : list document)
    : list document :=
  flat_map (fun d => map (fun t => mk_doc t (md_source d) (md_page d))
                         (split_text_on_tokens chunk_size chunk_overlap (page_content d)))
           docs.

Definition split_documents_with (chunk_size chunk_overlap : nat) (docs : list document)
    : M (list document) :=
  trace_function "split_documents" false false (ret "") no_result_str
    (emit (EvStage "split_documents");;;
     try_except
       (log DEBUG "Loading BPE tokenizer (gpt2)";;;
        match hf_tokenizer_load with Some e => raise e | None => ret tt end;;;
        log INFO "Splitting documents into chunks";;;
        if ((chunk_size =? 0) || (chunk_size <? chunk_overlap))%nat then
          raise (ValueError "Got a larger chunk overlap than chunk size")
        else
          match tiktoken_load with Some e => raise e | None => ret tt end;;;
          let splits := split_docs chunk_size chunk_overlap docs in
          log INFO "Created chunks from documents";;;
          ret splits)
       (fun e => log ERROR ("Error splitting documents: " ++ exc_msg e);;; raise e)).

Definition split_documents (docs : list document) : M (list document) :=
  split_documents_with 500 100 docs.

(** ** vectorstore.py: [create_vectorstore]

    [Chroma.from_documents(documents, embedding, persist_directory)] is the
    library's: it adds the documents to the collection persisted under the
    directory, creating the directory when it is absent.  The directory's
    entries stand for the stored chunk texts. *)
Definition chroma_from_documents (splits : list document) (dir : string) : M unit :=
  w <- get_world;;
  let texts := map page_content splits in
  match w_fs w !! dir with
  | Some (DirNode entries _) =>
      put_world (set_fs w (<[dir := DirNode (entries ++ texts) (w_now w)]> (w_fs w)))
  | Some (FileNode _ _ _ _) => raise (OSError "NotADirectoryError" dir)
  | None => put_world (set_fs w (<[dir := DirNode texts (w_now w)]> (w_fs w)))
  end.

Definition create_vectorstore (splits : list document) (persist_directory : string)
    : M unit :=
  trace_function "create_vectorstore" false false (ret "") no_result_str
    (emit (EvStage "create_vectorstore");;;
     try_except
       (log INFO "Initializing embedding model (all-MiniLM-L6-v2)";;;
        chroma_from_documents splits persist_directory;;;
        log INFO "Vector store created")
       (fun e => log ERROR ("Failed to create vector store: " ++ exc_msg e);;; raise e)).

Definition build_rag_chain : M unit :=
  trace_function "build_rag_chain" false false (ret "") no_result_str
    (emit (EvStage "build_rag_chain");;; log INFO "RAG chain successfully constructed").

(** ** src/src/main.py: the pipeline steps of [main]'s [try] block *)

Definition main_init (pdf_path persist_directory : string) : M unit :=
  changed <- has_pdf_changed pdf_path default_checkpoint;;
  (if changed then
     log INFO "PDF is new or has been modified - rebuilding vector database";;;
     ex <- os_path_exists persist_directory;;
     if ex then log INFO "Deleting outdated vector database";;; rmtree persist_directory
     else ret tt
   else log INFO "PDF unchanged - using existing vector database");;;
  log INFO "Step 1: Loading PDF documents";;;
  docs <- load_pdf pdf_path;;
  log INFO "Step 2: Splitting documents into chunks";;;
  splits <- split_documents docs;;
  log INFO "Step 3: Creating vector store with embeddings";;;
  create_vectorstore splits persist_directory;;;
  update_pdf_checkpoint pdf_path default_checkpoint;;;
  log INFO "Step 4: Building RAG chain";;;
  build_rag_chain.

(** ** observability.py: [setup_langfuse] and [get_langfuse_client]

    [LANGFUSE_AVAILABLE] is whether [from langfuse import Langfuse]
    succeeded, [getenv] is [os.getenv], and [Langfuse] is the client's
    constructor [Langfuse(public_key=pk, secret_key=sk, host=host)], which
    may raise. *)

(** The truth value of an [Optional[str]]: [None] and [""] are false. *)
Definition py_truthy (s : option string) : bool :=
  match s with Some v => negb (String.eqb v "") | None => false end.

(** [a or b] on [Optional[str]] *)
Definition py_or (a b : option string) : option string :=
  if py_truthy a then a else b.

(** [global _langfuse_client; _langfuse_client = c] *)
Definition set_client (w : world) (c : option client) : world :=
  {| w_fs := w_fs w; w_can_create := w_can_create w; w_stdin := w_stdin w;
     w_replies := w_replies w; w_client := c; w_now := w_now w |}.

Definition setup_langfuse (LANGFUSE_AVAILABLE : bool) (getenv : string -> option string)
    (Langfuse : option string -> option string -> string -> M client)
    (public_key secret_key : option string) (host : string) : M bool :=
  if negb LANGFUSE_AVAILABLE then
    log WARNING ("Langfuse not installed. " ++ "Install with: pip install langfuse. "
                 ++ "Observability will be disabled.");;;
    ret false
  else
    try_except
      (let pk := py_or public_key (getenv "LANGFUSE_PUBLIC_KEY") in
       let sk := py_or secret_key (getenv "LANGFUSE_SECRET_KEY") in
       if negb (py_truthy pk) || negb (py_truthy sk) then
         log WARNING ("Langfuse credentials not provided. "
                      ++ "Set LANGFUSE_PUBLIC_KEY and LANGFUSE_SECRET_KEY environment variables. "
                      ++ "Observability will be disabled.");;;
         ret false
       else
         c <- Langfuse pk sk host;;
         w <- get_world;;
         put_world (set_client w (Some c));;;
         log INFO "Langfuse initialized successfully";;;
         ret true)
      (fun e => log ERROR ("Failed to initialize Langfuse: " ++ exc_msg e);;; ret false).

Definition get_langfuse_client : M (option client) :=
  w <- get_world;; ret (w_client w).

(** [s * n] *)
Fixpoint str_repeat (n : nat) (s : string) : string :=
  match n with O => "" | S k => s ++ str_repeat k s end.

(** ["=" * 50] *)
Definition rule50 : string := str_repeat 50 "=".

(** ** src/src/main.py: [main]

    [main_setup] is the start of [main]'s [try] block, up to the two path
    log lines; [setup_langfuse()] runs with its defaults.  The paths are the
    ones [main] computes from [__file__]. *)
Definition main_setup (LANGFUSE_AVAILABLE : bool) (getenv : string -> option string)
    (Langfuse : option string -> option string -> string -> M client)
    (pdf_path persist_directory : string) : M unit :=
  log INFO rule50;;;
  log INFO "RAG Chatbot Initialization Started";;;
  log INFO rule50;;;
  log INFO "Initializing Langfuse observability...";;;
  langfuse_initialized <-
    setup_langfuse LANGFUSE_AVAILABLE getenv Langfuse None None "https://cloud.langfuse.com";;
  (if langfuse_initialized then log INFO "✓ Langfuse observability enabled"
   else log INFO "⚠ Langfuse observability disabled (will continue without it)");;;
  log INFO ("PDF path: " ++ pdf_path);;;
  log INFO ("Vector store path: " ++ persist_directory).

Definition SystemExit1 : exc := mk_exc "SystemExit" false "1".

Definition main (fuel : nat) (LANGFUSE_AVAILABLE : bool) (getenv : string -> option string)
    (Langfuse : option string -> option string -> string -> M client)
    (pdf_path persist_directory : string) : M loop_end :=
  trace_function "initialize_rag_pipeline" false false (ret "") no_result_str
    (try_except
       (main_setup LANGFUSE_AVAILABLE getenv Langfuse pdf_path persist_directory;;;
        main_init pdf_path persist_directory;;;
        log INFO rule50;;;
        log INFO "RAG Chatbot Ready for Queries";;;
        log INFO rule50;;;
        print (nl ++ rule50);;;
        print "RAG Chatbot - Ask questions about your PDF";;;
        print "Type 'exit' to quit";;;
        print (rule50 ++ nl);;;
        query_loop fuel 0)
       (fun e =>
          log CRITICAL ("Fatal error: " ++ exc_msg e);;;
          flush_traces;;;
          print ("Fatal error: " ++ exc_msg e);;;
          raise SystemExit1)).


End Program.

(** ** Concrete instances for the examples and witnesses *)

Definition toy_str_float (f : float) : string :=
  if PrimFloat.eqb f 1.0%float then "1.0"
  else if PrimFloat.eqb f 2.0%float then "2.0" else "0.0".

Definition toy_float (s : string) : option float :=
  if String.eqb s "1.0" then Some 1.0%float
  else if String.eqb s "2.0" then Some 2.0%float
  else if String.eqb s "0.0" then Some 0.0%float else None.

(** One token per character. *)
Definition toy_encode (s : string) : list Z :=
  map (fun c => Z.of_nat (Ascii.nat_of_ascii c)) (String.list_ascii_of_string s).

Definition toy_decode (l : list Z) : string :=
  String.string_of_list_ascii (map (fun z => Ascii.ascii_of_nat (Z.to_nat z)) l).

Definition toy_ext : externals :=
  {| py_float := toy_float; py_str_float := toy_str_float;
     tok_encode := toy_encode; tok_decode := toy_decode;
     hf_tokenizer_load := None; tiktoken_load := None;
     pdf_pages := fun d => Some [d] |}.

Definition mk_world0 (fs : gmap string node) (stdin : list string)
    (replies : list (result string)) (cl : option client) : world :=
  {| w_fs := fs; w_can_create := fun _ => true; w_stdin := stdin;
     w_replies := replies; w_client := cl; w_now := 2.0%float |}.

(** A second run: the PDF is unchanged since the checkpoint was written and
    the vector store of the first run is on disk. *)
Definition second_run_fs : gmap string node :=
  <["Ramayana.pdf" := FileNode "Rama went to the forest." 1.0%float true true]>
  (<[".pdf_checkpoint" := FileNode "1.0" 1.0%float true true]>
  (<["chroma_db_bpe" := DirNode ["Rama went to the forest."] 1.0%float]> ∅)).

(** The worlds of the examples. *)
Definition pdf_only_fs : gmap string node :=
  <["a.pdf" := FileNode "x" 1.0%float true true]> ∅.

(** The checkpoint exists but cannot be read back (mode [0o200]). *)
Definition write_only_checkpoint_fs : gmap string node :=
  <["a.pdf" := FileNode "x" 1.0%float true true]>
  (<[".ck" := FileNode "0.0" 0.0%float false true]> ∅).

(** A decorated function with a visible effect. *)
Definition effectful_ok (_ : list pyval) : M pyval :=
  emit (EvStage "f");;; ret (PyStr "ok").

(** A telemetry client whose every call fails with an [Exception]. *)
Definition failing_client : client :=
  {| cl_trace := fun _ => Some (mk_exc "ConnectionError" true "down");
     cl_flush := Some (mk_exc "ConnectionError" true "down") |}.

(** ** Readings of the claims *)

Definition res_of {A} (x : result A * world * list event) : result A := fst (fst x).
Definition world_of {A} (x : result A * world * list event) : world := snd (fst x).
Definition out_of {A} (x : result A * world * list event) : list event := snd x.

Definition is_log (ev : event) : Prop := match ev with EvLog _ _ => True | _ => False end.

(** A computation that leaves the world as it is and only writes log records. *)
Definition read_only {A} (m : M A) : Prop :=
  forall w, world_of (m w) = w /\ Forall is_log (out_of (m w)).

Definition set_stdin (w : world) (l : list string) : world :=
  {| w_fs := w_fs w; w_can_create := w_can_create w; w_stdin := l;
     w_replies := w_replies w; w_client := w_client w; w_now := w_now w |}.

Fixpoint count_invokes (o : list event) : nat :=
  match o with
  | [] => 0
  | EvInvoke _ :: r => S (count_invokes r)
  | _ :: r => count_invokes r
  end.

(** The telemetry client, when there is one, fails only with [Exception]s
    (network errors and the like), not with [KeyboardInterrupt]. *)
Definition sink_raises_Exceptions (w : world) : Prop :=
  forall c, w_client w = Some c ->
    (forall r e, cl_trace c r = Some e -> exc_is_Exception e = true) /\
    (forall e, cl_flush c = Some e -> exc_is_Exception e = true).

(** The text of the checkpoint file, when it is a file that can be read. *)
Definition readable_text (w : world) (p : string) : option string :=
  match w_fs w !! p with
  | Some (FileNode d _ true _) => Some d
  | _ => None
  end.

(** The questions sent to the chain, in order. *)
Fixpoint invoked (o : list event) : list string :=
  match o with
  | [] => []
  | EvInvoke q :: r => q :: invoked r
  | _ :: r => invoked r
  end.

(** What one pass of the src/src/main.py loop writes when [input] meets the
    end of the input. *)
Definition eof_pass_output : list event :=
  [EvStdout "Question: "; EvLog ERROR ("Error processing query: " ++ exc_msg EOFError);
   EvStdout (("Error: " ++ exc_msg EOFError ++ nl) ++ nl)].



Section Proofs.
Context `{X : externals}.

Ltac unfold_monad :=
  unfold bind, ret, raise, try_except, emit, get_world, put_world, log in *.

(** *** Read-only computations *)

Lemma ro_ret {A} (a : A) : read_only (ret a).
Proof. intros w; split; [reflexivity | constructor]. Qed.

Lemma ro_raise {A} (e : exc) : read_only (@raise A e).
Proof. intros w; split; [reflexivity | constructor]. Qed.

Lemma ro_log (l : level) (s : string) : read_only (log l s).
Proof. intros w; split; [reflexivity | repeat constructor]. Qed.

Lemma ro_get : read_only get_world.
Proof. intros w; split; [reflexivity | constructor]. Qed.

Lemma ro_bind {A B} (m : M A) (k : A -> M B) :
  read_only m -> (forall a, read_only (k a)) -> read_only (bind m k).
Proof.
  unfold read_only, world_of, out_of. intros Hm Hk w. unfold bind. specialize (Hm w).
  destruct (m w) as [[[a|e] w1] o1] eqn:E; simpl in *;
    [|exact Hm].
  destruct Hm as [-> Ho1]. specialize (Hk a w).
  destruct (k a w) as [[r w2] o2]; simpl in *. destruct Hk as [-> Ho2].
  split; [reflexivity | apply Forall_app; split; assumption].
Qed.

Lemma ro_try {A} (m : M A) (h : exc -> M A) :
  read_only m -> (forall e, read_only (h e)) -> read_only (try_except m h).
Proof.
  unfold read_only, world_of, out_of. intros Hm Hh w. unfold try_except. specialize (Hm w).
  destruct (m w) as [[[a|e] w1] o1] eqn:E; simpl in *;
    [exact Hm|].
  destruct Hm as [-> Ho1]. destruct (exc_is_Exception e); [|simpl; split; auto].
  specialize (Hh e w).
  destruct (h e w) as [[r w2] o2]; simpl in *. destruct Hh as [-> Ho2].
  split; [reflexivity | apply Forall_app; split; assumption].
Qed.

Ltac ro_solve :=
  repeat match goal with
  | |- read_only (bind _ _) => apply ro_bind; [|intros ?]
  | |- read_only (try_except _ _) => apply ro_try; [|intros ?]
  | |- read_only (ret _) => apply ro_ret
  | |- read_only (raise _) => apply ro_raise
  | |- read_only (log _ _) => apply ro_log
  | |- read_only get_world => apply ro_get
  | |- read_only (if ?b then _ else _) => destruct b
  | |- read_only (match ?x with _ => _ end) => destruct x
  end.

Lemma has_pdf_changed_ro (pdf_path checkpoint_file : string) :
  read_only (has_pdf_changed pdf_path checkpoint_file).
Proof.
  unfold has_pdf_changed, os_path_exists, os_path_getmtime, read_file, float_of_string.
  ro_solve.
Qed.

(** The value [has_pdf_changed] returns, branch by branch. *)
Lemma has_pdf_changed_res (pdf_path checkpoint_file : string) (w : world) :
  res_of (has_pdf_changed pdf_path checkpoint_file w) =
  Ok (match w_fs w !! checkpoint_file, w_fs w !! pdf_path with
      | None, _ => true
      | Some _, None => true
      | Some _, Some n =>
          match readable_text w checkpoint_file with
          | None => true
          | Some d =>
              match py_float (py_strip d) with
              | None => true
              | Some v => negb (PrimFloat.eqb (node_mtime n) v)
              end
          end
      end).
Proof.
  unfold has_pdf_changed, os_path_exists, os_path_getmtime, read_file, float_of_string,
    readable_text, res_of.
  unfold_monad.
  destruct (w_fs w !! checkpoint_file) as [[d m [|] wr | ents m]|] eqn:Hc; cbn; rewrite ?Hc;
    cbn; try reflexivity;
  destruct (w_fs w !! pdf_path) as [n|] eqn:Hp; cbn; rewrite ?Hc, ?Hp; cbn; try reflexivity;
  rewrite ?Hc; cbn; try reflexivity.
  destruct (py_float (py_strip d)); cbn; [|reflexivity].
  destruct (PrimFloat.eqb (node_mtime n) f); reflexivity.
Qed.


(** C9 (has_pdf_changed is read-only): for every pair of paths and every
    world, whichever branch the call takes (no checkpoint, no PDF, unreadable
    or unparsable checkpoint, match, mismatch), it leaves the whole world
    as it was (the checkpoint file, the PDF, the index directory and every
    other file of [w_fs]) and outputs nothing but log records. *)
Theorem has_pdf_changed_read_only (pdf_path checkpoint_file : string) (w : world) :
  world_of (has_pdf_changed pdf_path checkpoint_file w) = w /\
  w_fs (world_of (has_pdf_changed pdf_path checkpoint_file w)) = w_fs w /\
  Forall is_log (out_of (has_pdf_changed pdf_path checkpoint_file w)).
Proof.
  destruct (has_pdf_changed_ro pdf_path checkpoint_file w) as [Hw Ho].
  rewrite Hw. auto.
Qed.

(** C2 (has_pdf_changed decides): the call returns (never raises) [True]
    when there is no checkpoint file, when the PDF does not exist, when the
    checkpoint cannot be read or its stripped text is not a float, and when
    the stored float differs from the PDF's mtime; it returns [False]
    exactly when the checkpoint is read, parses, and its value is equal
    ([==] on floats) to the PDF's current mtime. *)
Theorem has_pdf_changed_cases (pdf_path checkpoint_file : string) (w : world) :
  let r := res_of (has_pdf_changed pdf_path checkpoint_file w) in
  (w_fs w !! checkpoint_file = None -> r = Ok true) /\
  (w_fs w !! pdf_path = None -> r = Ok true) /\
  (is_Some (w_fs w !! checkpoint_file) -> readable_text w checkpoint_file = None ->
     r = Ok true) /\
  (forall d, readable_text w checkpoint_file = Some d -> py_float (py_strip d) = None ->
     r = Ok true) /\
  (forall d v n, readable_text w checkpoint_file = Some d ->
     py_float (py_strip d) = Some v -> w_fs w !! pdf_path = Some n ->
     PrimFloat.eqb (node_mtime n) v = false -> r = Ok true) /\
  (r = Ok false <->
     exists d v n, readable_text w checkpoint_file = Some d /\
       py_float (py_strip d) = Some v /\ w_fs w !! pdf_path = Some n /\
       PrimFloat.eqb (node_mtime n) v = true).
Proof.
  cbv zeta. rewrite has_pdf_changed_res.
  unfold readable_text.
  destruct (w_fs w !! checkpoint_file) as [[d m [|] wr | ents m]|] eqn:Hc;
  destruct (w_fs w !! pdf_path) as [n|] eqn:Hp;
  repeat split; intros; simplify_eq/=; try done;
  repeat match goal with
  | H : ex _ |- _ => destruct H as (? & ? & ? & ? & ? & ? & ?); simplify_eq/=
  end;
  repeat match goal with
  | H : py_float _ = _ |- _ => rewrite H in *
  | H : PrimFloat.eqb _ _ = _ |- _ => rewrite H in *
  end; try done.
  destruct (py_float (py_strip d)) as [v|] eqn:Hv; [|done].
  destruct (PrimFloat.eqb (node_mtime n) v) eqn:He; [|done].
  eauto 10.
Qed.


(** *** The checkpoint writer *)

Ltac body_cases pdf ckpt w :=
  unfold update_pdf_checkpoint, update_pdf_checkpoint_body, os_path_getmtime, write_file,
    res_of, world_of, out_of in *;
  unfold_monad; cbn in *;
  destruct (w_fs w !! pdf) as [n'|] eqn:Hp; cbn in *; rewrite ?Hp in *; cbn in *;
  [ destruct (w_fs w !! ckpt) as [[d m r [|]|ents m]|] eqn:Hc; cbn in *; rewrite ?Hc in *;
    cbn in *; [| | |destruct (w_can_create w ckpt) eqn:Hcc; cbn in *] | ].

(** When the [try] block runs to its end, the checkpoint file holds [str]
    of the PDF's mtime, written now and still writable. *)
Lemma update_body_ok (pdf_path checkpoint_file : string) (w : world) (n : node) :
  w_fs w !! pdf_path = Some n ->
  res_of (update_pdf_checkpoint_body pdf_path checkpoint_file w) = Ok tt ->
  exists r, w_fs (world_of (update_pdf_checkpoint pdf_path checkpoint_file w))
              !! checkpoint_file
            = Some (FileNode (py_str_float (node_mtime n)) (w_now w) r true).
Proof.
  intros Hn Hok. body_cases pdf_path checkpoint_file w; simplify_eq;
    rewrite ?lookup_insert_eq; eauto.
Qed.

(** When the [try] block raises, it raised an [Exception] (an [OSError])
    and changed nothing. *)
Lemma update_body_err (pdf_path checkpoint_file : string) (w : world) (e : exc) :
  res_of (update_pdf_checkpoint_body pdf_path checkpoint_file w) = Err e ->
  exc_is_Exception e = true /\
  world_of (update_pdf_checkpoint_body pdf_path checkpoint_file w) = w /\
  out_of (update_pdf_checkpoint_body pdf_path checkpoint_file w) = [].
Proof.
  intros He. body_cases pdf_path checkpoint_file w; simplify_eq; auto.
Qed.

(** C8 (update_pdf_checkpoint never raises): for every pair of paths and every
    world the call returns normally; when its [try] block succeeds the
    checkpoint file holds [str] of the PDF's mtime, and when it fails
    (missing PDF, checkpoint path that cannot be written) the failure is
    logged at ERROR level, swallowed, and the world is left as it was. *)
Theorem update_pdf_checkpoint_never_raises (pdf_path checkpoint_file : string) (w : world) :
  res_of (update_pdf_checkpoint pdf_path checkpoint_file w) = Ok tt /\
  (forall n, w_fs w !! pdf_path = Some n ->
     res_of (update_pdf_checkpoint_body pdf_path checkpoint_file w) = Ok tt ->
     exists r, w_fs (world_of (update_pdf_checkpoint pdf_path checkpoint_file w))
                 !! checkpoint_file
               = Some (FileNode (py_str_float (node_mtime n)) (w_now w) r true)) /\
  (forall e, res_of (update_pdf_checkpoint_body pdf_path checkpoint_file w) = Err e ->
     world_of (update_pdf_checkpoint pdf_path checkpoint_file w) = w /\
     out_of (update_pdf_checkpoint pdf_path checkpoint_file w)
       = [EvLog ERROR ("Error updating checkpoint: " ++ exc_msg e)]).
Proof.
  split; [|split; [apply update_body_ok|]].
  - destruct (res_of (update_pdf_checkpoint_body pdf_path checkpoint_file w)) as [[]|e]
      eqn:E.
    + revert E. unfold update_pdf_checkpoint, res_of, try_except.
      destruct (update_pdf_checkpoint_body pdf_path checkpoint_file w) as [[[[]|e] w1] o1];
        simpl; congruence.
    + destruct (update_body_err _ _ _ _ E) as (Hexc & _).
      revert E. unfold update_pdf_checkpoint, res_of, try_except.
      destruct (update_pdf_checkpoint_body pdf_path checkpoint_file w) as [[[[]|e'] w1] o1];
        simpl; intros; simplify_eq; rewrite Hexc; reflexivity.
  - intros e E. destruct (update_body_err _ _ _ _ E) as (Hexc & Hw & Ho).
    revert E Hw Ho. unfold update_pdf_checkpoint, res_of, world_of, out_of, try_except.
    destruct (update_pdf_checkpoint_body pdf_path checkpoint_file w) as [[[[]|e'] w1] o1];
      simpl; intros; simplify_eq; rewrite Hexc; simpl; auto.
Qed.

(** C4 (checkpoint round trip), as amended: when the [try] block of
    [update_pdf_checkpoint] succeeds, the PDF's mtime is the same
    afterwards, the checkpoint file can be read back (it is not a write-only
    file), and the written [str] of the mtime parses back to an equal float,
    then [has_pdf_changed] with the same checkpoint file returns [False]. *)
Theorem checkpoint_round_trip (pdf_path checkpoint_file : string) (w : world)
    (n0 : node) (v : float) :
  w_fs w !! pdf_path = Some n0 ->
  res_of (update_pdf_checkpoint_body pdf_path checkpoint_file w) = Ok tt ->
  (exists n1, w_fs (world_of (update_pdf_checkpoint pdf_path checkpoint_file w))
                !! pdf_path = Some n1 /\ node_mtime n1 = node_mtime n0) ->
  is_Some (readable_text (world_of (update_pdf_checkpoint pdf_path checkpoint_file w))
             checkpoint_file) ->
  py_float (py_strip (py_str_float (node_mtime n0))) = Some v ->
  PrimFloat.eqb (node_mtime n0) v = true ->
  res_of (has_pdf_changed pdf_path checkpoint_file
            (world_of (update_pdf_checkpoint pdf_path checkpoint_file w))) = Ok false.
Proof.
  intros Hn0 Hok (n1 & Hn1 & Hm) Hread Hparse Heq.
  destruct (update_body_ok _ _ _ _ Hn0 Hok) as [r Hc].
  rewrite has_pdf_changed_res. unfold readable_text in *.
  rewrite Hc in *. rewrite Hn1. destruct r; [|destruct Hread; discriminate].
  rewrite Hparse, Hm, Heq. reflexivity.
Qed.


(** *** The monad's results and outputs *)

Lemma bind_ok_eq {A B} (m : M A) (k : A -> M B) (w w1 : world) (a : A) o1 :
  m w = (Ok a, w1, o1) ->
  bind m k w = (res_of (k a w1), world_of (k a w1), (o1 ++ out_of (k a w1))%list).
Proof.
  intros E. unfold bind. rewrite E.
  unfold res_of, world_of, out_of. destruct (k a w1) as [[r w2] o2]. reflexivity.
Qed.

Lemma bind_ok_inv {A B} (m : M A) (k : A -> M B) (w : world) (b : B) :
  res_of (bind m k w) = Ok b -> exists a w1 o1, m w = (Ok a, w1, o1) /\ res_of (k a w1) = Ok b.
Proof.
  unfold bind, res_of. destruct (m w) as [[[a|e] w1] o1]; simpl; [|discriminate].
  destruct (k a w1) as [[r w2] o2] eqn:E; simpl. intros ->. exists a, w1, o1.
  rewrite E. auto.
Qed.

Lemma try_ok_inv {A} (m : M A) (h : exc -> M A) (w : world) (a : A) :
  res_of (try_except m h w) = Ok a ->
  res_of (m w) = Ok a \/ exists e w1, res_of (h e w1) = Ok a.
Proof.
  unfold try_except, res_of. destruct (m w) as [[[a'|e] w1] o1]; simpl; [auto|].
  destruct (exc_is_Exception e); [|discriminate].
  destruct (h e w1) as [[r w2] o2] eqn:E; simpl. intros ->. right. exists e, w1.
  rewrite E. reflexivity.
Qed.

(** A [try] whose handler always returns lets out only the exceptions that
    are not [Exception]s. *)
Lemma try_err_class {A} (m : M A) (h : exc -> M A) (w : world) (e : exc) :
  (forall e' w', exists a, res_of (h e' w') = Ok a) ->
  res_of (try_except m h w) = Err e -> exc_is_Exception e = false.
Proof.
  intros Hh. unfold try_except, res_of. destruct (m w) as [[[a'|e'] w1] o1]; simpl;
    [discriminate|].
  destruct (exc_is_Exception e') eqn:Ee.
  - destruct (Hh e' w1) as [a Ha]. unfold res_of in Ha.
    destruct (h e' w1) as [[r w2] o2]; simpl in *. congruence.
  - simpl. intros H. injection H as ->. exact Ee.
Qed.

Lemma input_cons (prompt line : string) (rest : list string) (w : world) :
  w_stdin w = line :: rest ->
  input prompt w = (Ok line, set_stdin w rest, [EvStdout prompt]).
Proof.
  intros H. unfold input. unfold_monad. cbn. rewrite H. reflexivity.
Qed.

Lemma lstrip_all_space (line : string) :
  Forall (fun c => py_isspace c = true) (String.list_ascii_of_string line) ->
  lstrip line = "".
Proof.
  induction line as [|c r IH]; simpl; [reflexivity|].
  intros H. inversion H as [|? ? Hc Hr]; subst. rewrite Hc. apply IH, Hr.
Qed.

Lemma strip_all_space (line : string) :
  Forall (fun c => py_isspace c = true) (String.list_ascii_of_string line) ->
  py_strip line = "".
Proof.
  intros H. unfold py_strip. rewrite (lstrip_all_space line H). reflexivity.
Qed.

(** C10 (blank lines re-prompt): a line that is empty or made only of
    whitespace prints "Please enter a question." and goes on to the next
    pass with the same query count; the chain is not invoked (the pass
    outputs only the prompt and that message) and nothing else changes. *)
Theorem blank_line_reprompts (line : string) (rest : list string) (query_count : nat)
    (w : world) :
  w_stdin w = line :: rest ->
  Forall (fun c => py_isspace c = true) (String.list_ascii_of_string line) ->
  query_iteration query_count w =
    (Ok (Some query_count), set_stdin w rest,
     [EvStdout "Question: "; EvStdout ("Please enter a question." ++ nl ++ nl)]).
Proof.
  intros Hin Hsp. unfold query_iteration.
  unfold try_except. rewrite (bind_ok_eq _ _ _ _ _ _ (input_cons _ _ _ _ Hin)).
  rewrite (strip_all_space line Hsp). reflexivity.
Qed.

Ltac world_cases :=
  repeat match goal with
  | |- context [match w_client ?w with _ => _ end] => destruct (w_client w) eqn:?; cbn
  | |- context [match cl_trace ?c ?r with _ => _ end] => destruct (cl_trace c r) eqn:?; cbn
  | |- context [match cl_flush ?c with _ => _ end] => destruct (cl_flush c) eqn:?; cbn
  | |- context [if exc_is_Exception ?e then _ else _] => destruct (exc_is_Exception e) eqn:?; cbn
  end.

(** C6 (per-query failures), as amended: a pass of the loop of
    src/src/main.py lets out only exceptions that are not [Exception]s
    ([KeyboardInterrupt], [SystemExit]); and when the chain fails on a query
    with an [Exception], the pass prints "Error: <message>", invokes the chain
    exactly once (no retry) and continues with the next pass, provided the
    telemetry sink itself fails only with [Exception]s. *)
Theorem query_failures_reported (query_count : nat) (w : world) :
  (forall e, res_of (query_iteration query_count w) = Err e -> exc_is_Exception e = false) /\
  (forall line rest e replies,
     w_stdin w = line :: rest -> py_strip line <> "" -> py_lower (py_strip line) <> "exit" ->
     w_replies w = Err e :: replies -> exc_is_Exception e = true ->
     sink_raises_Exceptions w ->
     res_of (query_iteration query_count w) = Ok (Some (S query_count)) /\
     In (EvStdout (("Error: " ++ exc_msg e ++ nl) ++ nl)) (out_of (query_iteration query_count w)) /\
     count_invokes (out_of (query_iteration query_count w)) = 1).
Proof.
  split.
  - intros e. unfold query_iteration. cbv zeta. apply try_err_class.
    intros. eexists. reflexivity.
  - intros line rest e replies Hin Hne Hnx Hrep He Hs.
    apply String.eqb_neq in Hne, Hnx.
    unfold query_iteration. cbv zeta. unfold try_except at 1.
    rewrite (bind_ok_eq _ _ _ _ _ _ (input_cons _ _ _ _ Hin)).
    unfold input, trace_context, send_trace, invoke, print, res_of, out_of; unfold_monad.
    cbn. rewrite Hin. cbn. rewrite Hne, Hnx. cbn. rewrite Hrep. cbn. rewrite He. cbn.
    world_cases.
    all: try (match goal with
              | Hs : sink_raises_Exceptions _, Hc : w_client _ = Some ?c,
                Ht : cl_trace ?c _ = Some ?e0 |- _ => pose proof (proj1 (Hs c Hc) _ _ Ht)
              end); try congruence.
    all: split; [reflexivity|split; [repeat (first [left; reflexivity | right])|reflexivity]].
Qed.

(** A sink exception that is not an [Exception] contradicts
    [sink_raises_Exceptions]. *)
Ltac sink_contra :=
  exfalso;
  match goal with
  | Hs : sink_raises_Exceptions _, Hc : w_client _ = Some ?c,
    Ht : cl_trace ?c _ = Some ?e0, Hf : exc_is_Exception ?e0 = false |- _ =>
      pose proof (proj1 (Hs c Hc) _ _ Ht); congruence
  | Hs : sink_raises_Exceptions _, Hc : w_client _ = Some ?c,
    Ht : cl_flush ?c = Some ?e0, Hf : exc_is_Exception ?e0 = false |- _ =>
      pose proof (proj2 (Hs c Hc) _ Ht); congruence
  end.

(** C7 (prompt, answer, exit), as amended.  src/main.py: the pass prompts
    with "\nYour Question: ", stops exactly when the line lowercased is
    "exit", and otherwise sends the line as it is to the chain and prints
    "\nAnswer: <text>".  src/src/main.py: the pass prompts with "Question: ",
    stops exactly when the stripped line lowercased is "exit" (so " Exit "
    stops too), and a non-blank other line is sent stripped to the chain,
    whose answer is printed as "Answer: <text>"; this when the telemetry sink
    fails only with [Exception]s. *)
Theorem repl_prompt_answer_exit :
  (forall w line rest, w_stdin w = line :: rest ->
     (py_lower line = "exit" ->
        root_iteration w =
          (Ok true, set_stdin w rest,
           [EvStdout (nl ++ "Your Question: "); EvStdout ("Exiting chatbot." ++ nl)])) /\
     (py_lower line <> "exit" -> forall r rs, w_replies w = Ok r :: rs ->
        res_of (root_iteration w) = Ok false /\
        out_of (root_iteration w) =
          [EvStdout (nl ++ "Your Question: ");
           EvStdout ("Searching and generating response..." ++ nl);
           EvInvoke line;
           EvStdout ((nl ++ "Answer:" ++ " " ++ r) ++ nl)])) /\
  (forall query_count w line rest, w_stdin w = line :: rest -> sink_raises_Exceptions w ->
     hd_error (out_of (query_iteration query_count w)) = Some (EvStdout "Question: ") /\
     (res_of (query_iteration query_count w) = Ok None <-> py_lower (py_strip line) = "exit") /\
     (py_strip line <> "" -> py_lower (py_strip line) <> "exit" ->
      forall r rs, w_replies w = Ok r :: rs ->
        res_of (query_iteration query_count w) = Ok (Some (S query_count)) /\
        In (EvInvoke (py_strip line)) (out_of (query_iteration query_count w)) /\
        In (EvStdout (("Answer: " ++ r ++ nl) ++ nl)) (out_of (query_iteration query_count w)))).
Proof.
  split.
  - intros w line rest Hin. split.
    + intros Hx. apply String.eqb_eq in Hx.
      unfold root_iteration. rewrite (bind_ok_eq _ _ _ _ _ _ (input_cons _ _ _ _ Hin)).
      rewrite Hx. reflexivity.
    + intros Hx r rs Hrep. apply String.eqb_neq in Hx.
      unfold root_iteration, res_of, out_of.
      rewrite (bind_ok_eq _ _ _ _ _ _ (input_cons _ _ _ _ Hin)).
      rewrite Hx. unfold invoke, print; unfold_monad. cbn. rewrite Hrep. cbn.
      split; reflexivity.
  - intros query_count w line rest Hin Hs.
    unfold query_iteration, input, trace_context, flush_traces, send_trace, invoke, print,
      res_of, out_of; unfold_monad.
    cbn. rewrite Hin. cbn.
    destruct (String.eqb (py_strip line) "") eqn:E1; cbn.
    { apply String.eqb_eq in E1. rewrite E1. split; [reflexivity|].
      split; [split; discriminate|]. intros []; reflexivity. }
    destruct (String.eqb (py_lower (py_strip line)) "exit") eqn:E2; cbn.
    { apply String.eqb_eq in E2. rewrite E2.
      world_cases; try sink_contra; try discriminate.
      all: split; [reflexivity|split; [split; reflexivity|]]; intros _ []; reflexivity. }
    apply String.eqb_neq in E2.
    destruct (w_replies w) as [|[r0|e0] rs0] eqn:Hrep; cbn.
    all: world_cases; try sink_contra; try discriminate.
    all: split; [reflexivity|split; [split; [discriminate|tauto]|]].
    all: intros _ _ r rs Hr; inversion Hr; subst.
    all: split; [reflexivity|
           split; repeat (first [left; reflexivity | right])].
Qed.

(** *** Token windows *)









(** *** More of the program *)

Lemma query_iteration_eof (query_count : nat) (w : world) :
  w_stdin w = [] ->
  query_iteration query_count w = (Ok (Some query_count), w, eof_pass_output).
Proof.
  intros H. unfold query_iteration, input; unfold_monad. cbn. rewrite H. reflexivity.
Qed.

(** X3: at the end of the input the loop of src/src/main.py never stops:
    every pass catches the [EOFError] of [input] as an [Exception], prints
    "Error: " and prompts again, leaving the state as it was. *)
Theorem query_loop_at_eof (fuel query_count : nat) (w : world) :
  w_stdin w = [] ->
  query_loop fuel query_count w =
    (Ok OutOfFuel, w, concat (repeat eof_pass_output fuel)).
Proof.
  intros H. induction fuel as [|f IH]; [reflexivity|].
  simpl query_loop. unfold bind. rewrite (query_iteration_eof _ _ H), IH. reflexivity.
Qed.

(** X4: the loop of src/main.py has no handler: at the end of the input it
    raises [EOFError], and a failing chain call ends it with the chain's
    exception, whatever its class. *)
Theorem root_loop_failures_propagate (fuel : nat) (w : world) :
  (w_stdin w = [] ->
     root_loop (S fuel) w = (Err EOFError, w, [EvStdout (nl ++ "Your Question: ")])) /\
  (forall line rest e replies,
     w_stdin w = line :: rest -> py_lower line <> "exit" -> w_replies w = Err e :: replies ->
     res_of (root_loop (S fuel) w) = Err e).
Proof.
  split.
  - intros H. simpl root_loop. unfold root_iteration, input; unfold_monad. cbn.
    rewrite H. reflexivity.
  - intros line rest e replies Hin Hx Hrep. apply String.eqb_neq in Hx.
    simpl root_loop. unfold res_of, bind at 1.
    unfold root_iteration. rewrite (bind_ok_eq _ _ _ _ _ _ (input_cons _ _ _ _ Hin)).
    rewrite Hx. unfold invoke, print, res_of, world_of, out_of; unfold_monad. cbn.
    rewrite Hrep. reflexivity.
Qed.

(** X5: [flush_traces] leaves the state as it is, writes nothing when there
    is no client, and never raises an [Exception]: a failed flush is logged
    as an error. *)
Theorem flush_traces_safe (w : world) :
  world_of (flush_traces w) = w /\
  (w_client w = None -> out_of (flush_traces w) = [] /\ res_of (flush_traces w) = Ok tt) /\
  (forall e, res_of (flush_traces w) = Err e -> exc_is_Exception e = false) /\
  (forall c e, w_client w = Some c -> cl_flush c = Some e -> exc_is_Exception e = true ->
     res_of (flush_traces w) = Ok tt /\
     out_of (flush_traces w) = [EvLog ERROR ("Failed to flush Langfuse traces: " ++ exc_msg e)]).
Proof.
  unfold flush_traces, res_of, world_of, out_of; unfold_monad. cbn.
  destruct (w_client w) as [c|] eqn:Hc; cbn.
  - destruct (cl_flush c) as [e|] eqn:Hf; cbn.
    + destruct (exc_is_Exception e) eqn:He; cbn.
      * split; [reflexivity|split; [discriminate|split; [discriminate|]]].
        intros c' e' Hc' Hf' _. injection Hc' as <-. rewrite Hf in Hf'.
        injection Hf' as <-. split; reflexivity.
      * split; [reflexivity|split; [discriminate|split; [intros e' H; injection H as <-; exact He|]]].
        intros c' e' Hc' Hf' He'. injection Hc' as <-. congruence.
    + split; [reflexivity|split; [discriminate|split; [discriminate|]]].
      intros c' e' Hc' Hf'. injection Hc' as <-. congruence.
  - split; [reflexivity|split; [intros _; split; reflexivity|split; [discriminate|]]].
    discriminate.
Qed.

(** X6: [setup_langfuse] never raises an [Exception].  Each key is the
    argument when it is a non-empty string and the environment variable
    otherwise.  Without the langfuse package or without both keys it returns
    False and changes nothing; when the client is built it returns True and
    installs it as the global client that [get_langfuse_client] returns; when
    building it fails with an [Exception] it returns False and installs
    nothing. *)
Theorem setup_langfuse_outcomes (LANGFUSE_AVAILABLE : bool) (getenv : string -> option string)
    (Langfuse : option string -> option string -> string -> M client)
    (public_key secret_key : option string) (host : string) (w : world) :
  let pk := py_or public_key (getenv "LANGFUSE_PUBLIC_KEY") in
  let sk := py_or secret_key (getenv "LANGFUSE_SECRET_KEY") in
  let r := setup_langfuse LANGFUSE_AVAILABLE getenv Langfuse public_key secret_key host w in
  (forall e, res_of r = Err e -> exc_is_Exception e = false) /\
  (LANGFUSE_AVAILABLE = false \/ py_truthy pk = false \/ py_truthy sk = false ->
     res_of r = Ok false /\ world_of r = w) /\
  (LANGFUSE_AVAILABLE = true -> py_truthy pk = true -> py_truthy sk = true ->
   forall c w1 o1, Langfuse pk sk host w = (Ok c, w1, o1) ->
     res_of r = Ok true /\ world_of r = set_client w1 (Some c) /\
     res_of (get_langfuse_client (world_of r)) = Ok (Some c)) /\
  (LANGFUSE_AVAILABLE = true -> py_truthy pk = true -> py_truthy sk = true ->
   forall e w1 o1, Langfuse pk sk host w = (Err e, w1, o1) -> exc_is_Exception e = true ->
     res_of r = Ok false /\ world_of r = w1).
Proof.
  cbv zeta. unfold setup_langfuse, res_of, world_of; unfold_monad. cbv zeta.
  remember (py_or public_key (getenv "LANGFUSE_PUBLIC_KEY")) as pk eqn:Epk.
  remember (py_or secret_key (getenv "LANGFUSE_SECRET_KEY")) as sk eqn:Esk.
  destruct LANGFUSE_AVAILABLE; cbn.
  2:{ split; [discriminate|split; [intros _; split; reflexivity|split; discriminate]]. }
  destruct (py_truthy pk) eqn:Hp; cbn.
  2:{ split; [discriminate|split; [intros _; split; reflexivity|split; intros _ H; discriminate]]. }
  destruct (py_truthy sk) eqn:Hs; cbn.
  2:{ split; [discriminate|split; [intros _; split; reflexivity|split; intros _ _ H; discriminate]]. }
  destruct (Langfuse pk sk host w) as [[[c|e] w1] o1] eqn:HL; cbn.
  - split; [discriminate|split; [intros [H|[H|H]]; discriminate|split]].
    + intros _ _ _ c' w1' o1' H. injection H as <- <- <-.
      split; [reflexivity|split; reflexivity].
    + intros _ _ _ e' w1' o1' H. discriminate.
  - destruct (exc_is_Exception e) eqn:He; cbn.
    + split; [discriminate|split; [intros [H|[H|H]]; discriminate|split]].
      * intros _ _ _ c' w1' o1' H. discriminate.
      * intros _ _ _ e' w1' o1' H. injection H as <- <- <-.
        split; reflexivity.
    + split; [intros e' H; injection H as <-; exact He|
              split; [intros [H|[H|H]]; discriminate|split]].
      * intros _ _ _ c' w1' o1' H. discriminate.
      * intros _ _ _ e' w1' o1' H. injection H as <- <- <-. congruence.
Qed.

(** [load_pdf] on a missing path. *)
Lemma load_pdf_missing_eq (pdf_path : string) (w : world) :
  w_fs w !! pdf_path = None -> sink_raises_Exceptions w ->
  res_of (load_pdf pdf_path w) = Err (OSError "FileNotFoundError" ("PDF not found: " ++ pdf_path)) /\
  world_of (load_pdf pdf_path w) = w /\
  In (EvLog ERROR ("PDF not found at " ++ pdf_path)) (out_of (load_pdf pdf_path w)).
Proof.
  intros Hp Hs.
  unfold load_pdf, trace_function, send_trace, os_path_exists, py_str_args, repr_items,
    py_repr, res_of, world_of, out_of; unfold_monad.
  cbn. rewrite Hp. cbn.
  world_cases;
    repeat match goal with H : Some _ = Some _ |- _ => injection H as H; subst end;
    try sink_contra; try discriminate.
  all: split; [reflexivity|split; [reflexivity|repeat (first [left; reflexivity | right])]].
Qed.

(** X7: [load_pdf] on a path that does not exist raises
    [FileNotFoundError("PDF not found: <path>")] after logging "PDF not
    found at <path>", and changes nothing, when the telemetry sink fails only
    with [Exception]s. *)
Theorem load_pdf_missing (pdf_path : string) (w : world) :
  w_fs w !! pdf_path = None -> sink_raises_Exceptions w ->
  res_of (load_pdf pdf_path w) = Err (OSError "FileNotFoundError" ("PDF not found: " ++ pdf_path)) /\
  world_of (load_pdf pdf_path w) = w /\
  In (EvLog ERROR ("PDF not found at " ++ pdf_path)) (out_of (load_pdf pdf_path w)).
Proof. exact (load_pdf_missing_eq pdf_path w). Qed.


Lemma bind_res_eq {A B} (m : M A) (k : A -> M B) (w : world) (a : A) :
  res_of (m w) = Ok a ->
  bind m k w = (res_of (k a (world_of (m w))), world_of (k a (world_of (m w))),
                (out_of (m w) ++ out_of (k a (world_of (m w))))%list).
Proof.
  unfold res_of, world_of, out_of, bind. destruct (m w) as [[[a'|e] w1] o1]; simpl;
    [|discriminate].
  intros H. injection H as ->. destruct (k a w1) as [[r w2] o2]. reflexivity.
Qed.

Lemma invoked_app (o1 o2 : list event) : invoked (o1 ++ o2) = (invoked o1 ++ invoked o2)%list.
Proof. induction o1 as [|[] o1 IH]; simpl; rewrite ?IH; reflexivity. Qed.

Lemma sink_raises_Exceptions_client (w w' : world) :
  w_client w' = w_client w -> sink_raises_Exceptions w -> sink_raises_Exceptions w'.
Proof. unfold sink_raises_Exceptions. intros E H c Hc. apply H. congruence. Qed.

Lemma query_iteration_answer (query_count : nat) (w : world) (line : string) (rest : list string)
    (r : string) (replies : list (result string)) :
  w_stdin w = line :: rest -> py_strip line <> "" -> py_lower (py_strip line) <> "exit" ->
  w_replies w = Ok r :: replies -> sink_raises_Exceptions w ->
  res_of (query_iteration query_count w) = Ok (Some (S query_count)) /\
  world_of (query_iteration query_count w) =
    {| w_fs := w_fs w; w_can_create := w_can_create w; w_stdin := rest; w_replies := replies;
       w_client := w_client w; w_now := w_now w |} /\
  invoked (out_of (query_iteration query_count w)) = [py_strip line].
Proof.
  intros Hin Hne Hnx Hrep Hs. apply String.eqb_neq in Hne, Hnx.
  unfold query_iteration, input, trace_context, flush_traces, send_trace, invoke, print,
    res_of, world_of, out_of; unfold_monad.
  cbn. rewrite Hin. cbn. rewrite Hne, Hnx. cbn. rewrite Hrep. cbn.
  world_cases; try sink_contra; try discriminate.
  all: split; [reflexivity|split; reflexivity].
Qed.

Lemma query_iteration_exit (query_count : nat) (w : world) (line : string) (rest : list string) :
  w_stdin w = line :: rest -> py_lower (py_strip line) = "exit" -> sink_raises_Exceptions w ->
  res_of (query_iteration query_count w) = Ok None /\
  world_of (query_iteration query_count w) = set_stdin w rest /\
  invoked (out_of (query_iteration query_count w)) = [].
Proof.
  intros Hin Hx Hs.
  assert (Hne : String.eqb (py_strip line) "" = false).
  { apply String.eqb_neq. intros E. rewrite E in Hx. discriminate. }
  apply String.eqb_eq in Hx.
  unfold query_iteration, input, trace_context, flush_traces, send_trace, invoke, print,
    res_of, world_of, out_of; unfold_monad.
  cbn. rewrite Hin. cbn. rewrite Hne, Hx. cbn.
  world_cases; try sink_contra; try discriminate.
  all: split; [reflexivity|split; [unfold set_stdin; f_equal; congruence|reflexivity]].
Qed.

(** X9: fed questions that are neither blank nor "exit", then an "exit"
    line, and answered by the chain each time, the loop of src/src/main.py
    sends each question once, stripped and in order, reads the "exit" line
    and stops, when the telemetry sink fails only with [Exception]s. *)
Theorem query_loop_answers_then_exits (questions : list string) (answers : list string)
    (more : list (result string)) (stop : string) (rest : list string)
    (fuel query_count : nat) (w : world) :
  w_stdin w = (questions ++ stop :: rest)%list ->
  Forall (fun q => py_strip q <> "" /\ py_lower (py_strip q) <> "exit") questions ->
  py_lower (py_strip stop) = "exit" ->
  w_replies w = (map Ok answers ++ more)%list -> length answers = length questions ->
  sink_raises_Exceptions w ->
  (length questions < fuel)%nat ->
  res_of (query_loop fuel query_count w) = Ok Exited /\
  w_stdin (world_of (query_loop fuel query_count w)) = rest /\
  invoked (out_of (query_loop fuel query_count w)) = map py_strip questions.
Proof.
  revert answers fuel query_count w.
  induction questions as [|q qs IH]; intros answers fuel query_count w Hin Hq Hstop Hrep Hlen Hs Hf;
    (destruct fuel as [|f]; [simpl in Hf; lia|]).
  - destruct (query_iteration_exit query_count w stop rest Hin Hstop Hs) as (Hr & Hw & Ho).
    assert (E : query_loop (S f) query_count w =
                (Ok Exited, world_of (query_iteration query_count w),
                 (out_of (query_iteration query_count w) ++ [])%list))
      by (simpl query_loop; exact (bind_res_eq _ _ _ _ Hr)).
    rewrite E. cbn [res_of world_of out_of fst snd].
    rewrite Hw, invoked_app, Ho. split; [reflexivity|split; reflexivity].
  - destruct answers as [|a answers]; [discriminate|].
    inversion Hq as [|? ? [Hne Hnx] Hqs]; subst.
    destruct (query_iteration_answer query_count w q (qs ++ stop :: rest) a
                (map Ok answers ++ more) Hin Hne Hnx Hrep Hs) as (Hr & Hw & Ho).
    assert (E : query_loop (S f) query_count w =
                (res_of (query_loop f (S query_count) (world_of (query_iteration query_count w))),
                 world_of (query_loop f (S query_count) (world_of (query_iteration query_count w))),
                 (out_of (query_iteration query_count w)
                  ++ out_of (query_loop f (S query_count) (world_of (query_iteration query_count w))))%list))
      by (simpl query_loop; exact (bind_res_eq _ _ _ _ Hr)).
    rewrite E. cbn [res_of world_of out_of fst snd].
    rewrite invoked_app, Ho, Hw.
    destruct (IH answers f (S query_count)
                {| w_fs := w_fs w; w_can_create := w_can_create w;
                   w_stdin := (qs ++ stop :: rest)%list; w_replies := (map Ok answers ++ more)%list;
                   w_client := w_client w; w_now := w_now w |})
      as (H1 & H2 & H3); try reflexivity; try assumption.
    + simpl in Hlen. lia.
    + simpl in Hf. lia.
    + rewrite H1, H2, H3. split; [reflexivity|split; reflexivity].
Qed.

(** X10: when [main]'s start (logs and [setup_langfuse()]) returns and the
    pipeline steps of src/src/main.py then fail with an [Exception], [main]
    logs it as critical, flushes the traces, prints "Fatal error: <message>"
    and exits with [SystemExit(1)]; nothing else runs (the question loop in
    particular), when the telemetry sink fails only with [Exception]s. *)
Theorem main_fatal_exit (fuel : nat) (LANGFUSE_AVAILABLE : bool)
    (getenv : string -> option string)
    (Langfuse : option string -> option string -> string -> M client)
    (pdf_path persist_directory : string) (w : world) (e : exc) :
  let setup := main_setup LANGFUSE_AVAILABLE getenv Langfuse pdf_path persist_directory in
  let w1 := world_of (setup w) in
  res_of (setup w) = Ok tt ->
  res_of (main_init pdf_path persist_directory w1) = Err e -> exc_is_Exception e = true ->
  sink_raises_Exceptions (world_of (main_init pdf_path persist_directory w1)) ->
  res_of (main fuel LANGFUSE_AVAILABLE getenv Langfuse pdf_path persist_directory w) =
    Err SystemExit1 /\
  exists o2, Forall (fun ev => is_log ev \/ ev = EvFlush) o2 /\
  out_of (main fuel LANGFUSE_AVAILABLE getenv Langfuse pdf_path persist_directory w) =
    (EvLog DEBUG "[TRACE START] initialize_rag_pipeline"
       :: out_of (setup w) ++ out_of (main_init pdf_path persist_directory w1)
       ++ EvLog CRITICAL ("Fatal error: " ++ exc_msg e)
       :: o2 ++ [EvStdout ("Fatal error: " ++ exc_msg e ++ nl)])%list.
Proof.
  cbv zeta. intros Hu Hr He Hs. unfold main.
  revert Hu Hr Hs.
  generalize (main_setup LANGFUSE_AVAILABLE getenv Langfuse pdf_path persist_directory)
    as setup.
  generalize (main_init pdf_path persist_directory) as init.
  intros init setup Hu Hr Hs.
  unfold res_of, world_of, out_of in *.
  unfold trace_function, flush_traces, print; unfold_monad. cbn.
  destruct (setup w) as [[[u|e1] w1] o1]; cbn in *; [|discriminate].
  destruct (init w1) as [[[a|e'] w2] o2]; cbn in *; [discriminate|].
  injection Hr as ->. rewrite He. cbn.
  world_cases;
    repeat match goal with H : Some _ = Some _ |- _ => injection H as H; subst end;
    try sink_contra; try discriminate.
  all: split; [reflexivity|].
  1: exists [EvLog ERROR ("Failed to flush Langfuse traces: " ++ exc_msg e0)].
  2: exists [EvFlush; EvLog DEBUG "Langfuse traces flushed successfully"].
  3: exists [].
  all: split; [|rewrite <- !app_assoc; reflexivity].
  all: repeat (constructor; [first [left; exact I | right; reflexivity]|]); constructor.
Qed.

Lemma bind_err_eq {A B} (m : M A) (k : A -> M B) (w : world) (e : exc) :
  res_of (m w) = Err e -> bind m k w = (Err e, world_of (m w), out_of (m w)).
Proof.
  unfold res_of, world_of, out_of, bind. destruct (m w) as [[[a|e'] w1] o1]; simpl;
    [discriminate|]. intros H. injection H as ->. reflexivity.
Qed.

(** X11: when the PDF does not exist, [has_pdf_changed] answers True, so
    the pipeline steps of src/src/main.py delete the existing vector store
    directory with everything below it, and only then fail in [load_pdf]
    with [FileNotFoundError]: the run ends with the old store gone, no new
    one built and nothing else changed, when the telemetry sink fails only
    with [Exception]s. *)
Theorem main_init_missing_pdf_deletes_store (pdf_path persist_directory : string)
    (entries : list string) (m : float) (w : world) :
  w_fs w !! pdf_path = None ->
  w_fs w !! persist_directory = Some (DirNode entries m) ->
  sink_raises_Exceptions w ->
  res_of (main_init pdf_path persist_directory w) =
    Err (OSError "FileNotFoundError" ("PDF not found: " ++ pdf_path)) /\
  world_of (main_init pdf_path persist_directory w) =
    set_fs w (filter (fun kv => in_tree persist_directory kv.1 = false) (w_fs w)) /\
  w_fs (world_of (main_init pdf_path persist_directory w)) !! persist_directory = None /\
  In (EvLog INFO "Deleting outdated vector database")
     (out_of (main_init pdf_path persist_directory w)).
Proof.
  intros Hp Hd Hs.
  assert (H1 : res_of (has_pdf_changed pdf_path default_checkpoint w) = Ok true)
    by (rewrite has_pdf_changed_res; rewrite Hp;
        destruct (w_fs w !! default_checkpoint); reflexivity).
  destruct (has_pdf_changed_ro pdf_path default_checkpoint w) as [Hw1 _].
  unfold main_init. rewrite (bind_res_eq _ _ _ _ H1). rewrite Hw1.
  cbn [res_of world_of out_of fst snd].
  set (w' := set_fs w (filter (fun kv => in_tree persist_directory kv.1 = false) (w_fs w))).
  set (ol := [EvLog INFO "PDF is new or has been modified - rebuilding vector database";
              EvLog INFO "Deleting outdated vector database"]).
  match goal with |- context [bind ?blk ?K w] =>
    assert (Hb : blk w = (Ok tt, w', ol))
      by (unfold os_path_exists, rmtree; unfold_monad; cbn; rewrite ?Hd; cbn; rewrite ?Hd; cbn; reflexivity);
    assert (Hbr : res_of (blk w) = Ok tt) by (rewrite Hb; reflexivity);
    rewrite (bind_res_eq _ _ _ _ Hbr); rewrite Hb
  end.
  cbn [res_of world_of out_of fst snd].
  assert (Hp' : w_fs w' !! pdf_path = None)
    by (subst w'; cbn; rewrite map_lookup_filter, Hp; reflexivity).
  assert (Hs' : sink_raises_Exceptions w')
    by (apply (sink_raises_Exceptions_client w); [reflexivity|exact Hs]).
  destruct (load_pdf_missing_eq pdf_path w' Hp' Hs') as (Hr & Hw & _).
  rewrite (bind_res_eq (log INFO "Step 1: Loading PDF documents") _ w' tt eq_refl).
  cbn [res_of world_of out_of fst snd log emit].
  rewrite (bind_err_eq _ _ _ _ Hr). cbn [res_of world_of out_of fst snd].
  rewrite Hw. split; [reflexivity|split; [reflexivity|split]].
  - subst w'. cbn. rewrite map_lookup_filter, Hd. cbn.
    unfold in_tree. rewrite String.eqb_refl. reflexivity.
  - apply in_or_app. right. apply in_or_app. left. subst ol. right. left. reflexivity.
Qed.

End Proofs.

(** ** The claims on concrete inputs *)

(** C1 (failing input): on a second run with the PDF unchanged,
    [has_pdf_changed] is false, yet [main] still loads, splits and indexes the
    PDF, and the store, which [Chroma.from_documents] appends to, now holds
    every chunk twice. *)
Theorem unchanged_pdf_reruns_pipeline :
  let w0 := mk_world0 second_run_fs [] [] None in
  res_of (@has_pdf_changed toy_ext "Ramayana.pdf" default_checkpoint w0) = Ok false /\
  In (EvStage "load_pdf") (out_of (@main_init toy_ext "Ramayana.pdf" "chroma_db_bpe" w0)) /\
  In (EvStage "split_documents")
     (out_of (@main_init toy_ext "Ramayana.pdf" "chroma_db_bpe" w0)) /\
  In (EvStage "create_vectorstore")
     (out_of (@main_init toy_ext "Ramayana.pdf" "chroma_db_bpe" w0)) /\
  w_fs (world_of (@main_init toy_ext "Ramayana.pdf" "chroma_db_bpe" w0)) !! "chroma_db_bpe" =
    Some (DirNode ["Rama went to the forest."; "Rama went to the forest."] 2.0%float).
Proof.
  vm_compute.
  split; [reflexivity|].
  split; [repeat (first [left; reflexivity | right])|].
  split; [repeat (first [left; reflexivity | right])|].
  split; [repeat (first [left; reflexivity | right])|].
  reflexivity.
Qed.

(** C4 (witness): the round trip on a PDF of mtime 1.0 and no checkpoint yet. *)
Lemma checkpoint_round_trip_witness :
  res_of (@has_pdf_changed toy_ext "a.pdf" ".ck"
            (world_of (@update_pdf_checkpoint toy_ext "a.pdf" ".ck"
                         (mk_world0 pdf_only_fs [] [] None)))) = Ok false.
Proof.
  apply (@checkpoint_round_trip toy_ext "a.pdf" ".ck" (mk_world0 pdf_only_fs [] [] None)
           (FileNode "x" 1.0%float true true) 1.0%float).
  - vm_compute. reflexivity.
  - vm_compute. reflexivity.
  - eexists. vm_compute. split; reflexivity.
  - vm_compute. eexists. reflexivity.
  - vm_compute. reflexivity.
  - vm_compute. reflexivity.
Defined.

(** C4 (counterexample): with a checkpoint file that can be written but not
    read, [update_pdf_checkpoint] succeeds, the PDF is untouched, and still
    [has_pdf_changed] answers true right after. *)
Lemma checkpoint_write_only_changed :
  let w0 := mk_world0 write_only_checkpoint_fs [] [] None in
  let w1 := world_of (@update_pdf_checkpoint toy_ext "a.pdf" ".ck" w0) in
  res_of (@update_pdf_checkpoint_body toy_ext "a.pdf" ".ck" w0) = Ok tt /\
  w_fs w1 !! "a.pdf" = Some (FileNode "x" 1.0%float true true) /\
  res_of (@has_pdf_changed toy_ext "a.pdf" ".ck" w1) = Ok true.
Proof. vm_compute. split; [reflexivity | split; reflexivity]. Qed.

(** C5 (failing input): an argument whose [__repr__] raises makes the
    decorated function raise, with no telemetry client at all, while the
    undecorated function returns; the function itself is never run. *)
Theorem traced_args_str_raises :
  let w0 := mk_world0 ∅ [] [] None in
  res_of (effectful_ok [PyObj None] w0) = Ok (PyStr "ok") /\
  res_of (traced "f" true false effectful_ok [PyObj None] w0) = Err repr_failure /\
  ~ In (EvStage "f") (out_of (traced "f" true false effectful_ok [PyObj None] w0)).
Proof.
  vm_compute. split; [reflexivity | split; [reflexivity|]].
  intros H. repeat (destruct H as [H|H]; [discriminate|]). exact H.
Qed.

(** C6 (counterexample): a [KeyboardInterrupt] raised while a query is
    answered is not reported and ends the loop, with a question still to
    read. *)
Lemma keyboard_interrupt_ends_loop :
  let w0 := mk_world0 ∅ ["hi"; "next"] [Err KeyboardInterrupt] None in
  res_of (query_loop 2 0 w0) = Err KeyboardInterrupt /\
  w_stdin (world_of (query_loop 2 0 w0)) = ["next"].
Proof. vm_compute. split; reflexivity. Qed.

(** C7 (counterexample): in src/src/main.py the prompt is "Question: " and
    the line " EXIT " ends the loop although it is not "exit" in any case. *)
Lemma padded_exit_ends_loop :
  let w0 := mk_world0 ∅ [" EXIT "] [] None in
  String.eqb (py_lower " EXIT ") "exit" = false /\
  res_of (query_iteration 0 w0) = Ok None /\
  hd_error (out_of (query_iteration 0 w0)) = Some (EvStdout "Question: ").
Proof. vm_compute. split; [reflexivity | split; reflexivity]. Qed.

(** C10 (witness): a line of two spaces. *)
Lemma blank_line_reprompts_witness :
  query_iteration 0 (mk_world0 ∅ ["  "] [] None) =
    (Ok (Some 0), set_stdin (mk_world0 ∅ ["  "] [] None) [],
     [EvStdout "Question: "; EvStdout ("Please enter a question." ++ nl ++ nl)]).
Proof.
  apply (blank_line_reprompts "  " [] 0 (mk_world0 ∅ ["  "] [] None)).
  - reflexivity.
  - vm_compute. repeat constructor.
Defined.



(** X3 (witness): two passes at the end of the input. *)
Lemma query_loop_at_eof_witness :
  query_loop 2 0 (mk_world0 ∅ [] [] None) =
    (Ok OutOfFuel, mk_world0 ∅ [] [] None, concat (repeat eof_pass_output 2)).
Proof. apply (query_loop_at_eof 2 0 (mk_world0 ∅ [] [] None)). reflexivity. Defined.

(** X7 (witness): a missing PDF with no telemetry client. *)
Lemma load_pdf_missing_witness :
  let w0 := mk_world0 ∅ [] [] None in
  res_of (@load_pdf toy_ext "a.pdf" w0) =
    Err (OSError "FileNotFoundError" ("PDF not found: " ++ "a.pdf")) /\
  world_of (@load_pdf toy_ext "a.pdf" w0) = w0 /\
  In (EvLog ERROR ("PDF not found at " ++ "a.pdf")) (out_of (@load_pdf toy_ext "a.pdf" w0)).
Proof.
  intros w0. apply load_pdf_missing.
  - vm_compute. reflexivity.
  - intros c Hc. vm_compute in Hc. discriminate.
Defined.


(** X9 (witness): one question, answered, then "exit", with a client whose
    traces all fail. *)
Lemma query_loop_answers_then_exits_witness :
  let w0 := mk_world0 ∅ ["hi"; "exit"] [Ok "ok"] (Some failing_client) in
  res_of (query_loop 2 0 w0) = Ok Exited /\
  w_stdin (world_of (query_loop 2 0 w0)) = [] /\
  invoked (out_of (query_loop 2 0 w0)) = map py_strip ["hi"].
Proof.
  intros w0.
  apply (query_loop_answers_then_exits ["hi"] ["ok"] [] "exit" [] 2 0 w0).
  - reflexivity.
  - constructor; [split; intros H; vm_compute in H; discriminate | constructor].
  - vm_compute. reflexivity.
  - reflexivity.
  - reflexivity.
  - intros c Hc. vm_compute in Hc. injection Hc as <-.
    split; [intros r e He | intros e He]; vm_compute in He; injection He as <-; reflexivity.
  - simpl. lia.
Defined.

(** X10 (witness): telemetry set up with a client whose calls all fail,
    then a missing PDF. *)
Lemma main_fatal_exit_witness :
  let w0 := mk_world0 ∅ [] [] None in
  let getenv := fun _ : string => Some "key" in
  let Langfuse := fun (_ _ : option string) (_ : string) => ret failing_client in
  let setup := main_setup true getenv Langfuse "a.pdf" "db" in
  let e := mk_exc "FileNotFoundError" true "PDF not found: a.pdf" in
  res_of (@main toy_ext 1 true getenv Langfuse "a.pdf" "db" w0) = Err SystemExit1 /\
  exists o2, Forall (fun ev => is_log ev \/ ev = EvFlush) o2 /\
  out_of (@main toy_ext 1 true getenv Langfuse "a.pdf" "db" w0) =
    (EvLog DEBUG "[TRACE START] initialize_rag_pipeline"
       :: out_of (setup w0) ++ out_of (@main_init toy_ext "a.pdf" "db" (world_of (setup w0)))
       ++ EvLog CRITICAL ("Fatal error: " ++ exc_msg e)
       :: o2 ++ [EvStdout ("Fatal error: " ++ exc_msg e ++ nl)])%list.
Proof.
  intros w0 getenv Langfuse setup e. apply main_fatal_exit.
  - vm_compute. reflexivity.
  - vm_compute. reflexivity.
  - reflexivity.
  - intros c Hc. vm_compute in Hc. injection Hc as <-.
    split; [intros r e' He | intros e' He]; vm_compute in He; injection He as <-; reflexivity.
Defined.

(** X11 (witness): a missing PDF next to the store of an earlier run, with
    a file inside the store directory. *)
Lemma main_init_missing_pdf_deletes_store_witness :
  let w0 := mk_world0 (<["db" := DirNode ["old"] 1.0%float]>
                       (<["db/chroma.sqlite3" := FileNode "x" 1.0%float true true]> ∅))
                      [] [] None in
  res_of (@main_init toy_ext "a.pdf" "db" w0) =
    Err (OSError "FileNotFoundError" ("PDF not found: " ++ "a.pdf")) /\
  world_of (@main_init toy_ext "a.pdf" "db" w0) =
    set_fs w0 (filter (fun kv => in_tree "db" kv.1 = false) (w_fs w0)) /\
  w_fs (world_of (@main_init toy_ext "a.pdf" "db" w0)) !! "db" = None /\
  In (EvLog INFO "Deleting outdated vector database")
     (out_of (@main_init toy_ext "a.pdf" "db" w0)).
Proof.
  intros w0. apply (main_init_missing_pdf_deletes_store "a.pdf" "db" ["old"] 1.0%float w0).
  - vm_compute. reflexivity.
  - vm_compute. reflexivity.
  - intros c Hc. vm_compute in Hc. discriminate.
Defined.
